(** * auth-lib: the [AuthService] orchestrator

    A shallow embedding of [src/application/AuthService.ts] and of the
    port and type declarations it uses, followed by the properties of the
    four use cases [register], [login], [validate] and [logout].

    Conventions of the embedding.
    - A JavaScript object used as a string-keyed mapping
      ([Record<string, unknown>]) is a [gmap string JsValue].
    - [T | null] and [T | undefined] are [option T].
    - A [number] is an IEEE 754 binary64 value ([Number.t]); arithmetic
      rounds to nearest, ties to even, as the standard library's
      [SpecFloat] operations at precision 53 do.  [exp] is a number of
      seconds; [Date.now()] is an integer count of milliseconds, turned into
      the number the service computes with.
    - An [async] method is a computation on the state of the outside world
      that either returns or throws; [await] sequences such computations.
      Every call made through [deps] to a collaborator is recorded, in
      order, in a call log, so that "is not invoked" can be stated. *)

From Stdlib Require Import ZArith List SpecFloat.
From stdpp Require Import base option gmap strings pretty.

Local Open Scope string_scope.
Local Open Scope Z_scope.

(** ** Numbers *)

Module Number.

(** Zeros of either sign, infinities of either sign, [NaN], and the finite
    values [m * 2 ^ e] with their sign. *)
Definition t : Type := spec_float.

Definition prec : Z := 53.
Definition emax : Z := 1024.

(** The number an integer literal or an integer clock reading denotes: the
    binary64 value nearest to it. *)
Definition of_Z (z : Z) : t := binary_normalize prec emax z 0 false.

(** [a * b], [a - b], [a / b] and [a < b]. *)
Definition mul (a b : t) : t := SFmul prec emax a b.
Definition sub (a b : t) : t := SFsub prec emax a b.
Definition div (a b : t) : t := SFdiv prec emax a b.
Definition lt (a b : t) : bool := SFltb a b.

(** [Math.floor(x)]: zeros, infinities and [NaN] are returned as they are,
    and so is a finite value without fractional bits; otherwise the
    largest integer below [x], which is [+0] for [0 < x < 1]. *)
Definition floor (x : t) : t :=
  match x with
  | S754_finite s m e =>
      if 0 <=? e then x
      else binary_normalize prec emax
             ((if s then Z.neg m else Z.pos m) / 2 ^ (- e)) 0 s
  | _ => x
  end.

End Number.

(** ** JavaScript values and the coercions the service relies on *)

(** The primitive values that can sit in a claims mapping. *)
Inductive JsValue : Type :=
| JsUndefined
| JsNull
| JsBool (b : bool)
| JsNum (n : Z)
| JsStr (s : string).

(** [String(v)]. *)
Definition js_String (v : JsValue) : string :=
  match v with
  | JsUndefined => "undefined"
  | JsNull => "null"
  | JsBool true => "true"
  | JsBool false => "false"
  | JsNum n => pretty n
  | JsStr s => s
  end.

(** [o.k]: reading a property that is not there gives [undefined]. *)
Definition js_prop (o : gmap string JsValue) (k : string) : JsValue :=
  default JsUndefined (o !! k).

(** [{ ...target, ...source }]: the properties of [source] are copied over
    those already written, so on a shared key the later one stays. *)
Definition js_spread (target source : gmap string JsValue)
  : gmap string JsValue :=
  source ∪ target.

(** Truthiness of a [string | null]: [null] and the empty string are falsy. *)
Definition js_truthy_string (b : option string) : bool :=
  match b with
  | None => false
  | Some EmptyString => false
  | Some (String _ _) => true
  end.

(** Truthiness of a [number | undefined]: [undefined], [+0], [-0] and
    [NaN] are falsy. *)
Definition js_truthy_number (n : option Number.t) : bool :=
  match n with
  | None => false
  | Some (S754_zero _) => false
  | Some S754_nan => false
  | Some (S754_infinity _) => true
  | Some (S754_finite _ _ _) => true
  end.

(** [a ?? b] on a [string | undefined]. *)
Definition js_nullish (a : option string) (b : string) : string :=
  match a with
  | Some s => s
  | None => b
  end.

(** ** domain/errors.ts *)

Inductive AuthErrorCode : Type :=
| USER_EXISTS
| INVALID_CREDENTIALS
| TOKEN_INVALID
| TOKEN_BLACKLISTED.

Definition code_string (c : AuthErrorCode) : string :=
  match c with
  | USER_EXISTS => "USER_EXISTS"
  | INVALID_CREDENTIALS => "INVALID_CREDENTIALS"
  | TOKEN_INVALID => "TOKEN_INVALID"
  | TOKEN_BLACKLISTED => "TOKEN_BLACKLISTED"
  end.

Module AuthError.
Record t : Type := { code : AuthErrorCode; message : string }.
End AuthError.

(** [new AuthError(code, message?)]: [super(message ?? code)]. *)
Definition new_AuthError (c : AuthErrorCode) (msg : option string)
  : AuthError.t :=
  {| AuthError.code := c;
     AuthError.message := js_nullish msg (code_string c) |}.

(** What a [throw] carries: an [AuthError] of this library, or anything a
    collaborator throws ([ForeignError], tagged by a description). *)
Inductive Thrown : Type :=
| OfAuthError (e : AuthError.t)
| ForeignError (what : string).

Inductive Outcome (A : Type) : Type :=
| Returned (a : A)
| Throws (e : Thrown).
Arguments Returned {A} a.
Arguments Throws {A} e.

(** ** application/types.ts and domain/ports/TokenManager.ts *)

Module RegisterInput.
Record t : Type :=
  { email : string;
    password : string;
    attributes : option (gmap string JsValue) }.
End RegisterInput.

Module LoginInput.
Record t : Type := { email : string; password : string }.
End LoginInput.

Module VerifiedToken.
Record t : Type :=
  { claims : gmap string JsValue;
    jti : option string;
    exp : option Number.t }.
End VerifiedToken.

(** [user?: TUser | null]: [None] is the property left out, [Some None] is
    [null]. *)
Module ValidationResult.
Record t (TUser : Type) : Type :=
  { valid : bool;
    claims : option (gmap string JsValue);
    user : option (option TUser) }.
Arguments valid {TUser} _.
Arguments claims {TUser} _.
Arguments user {TUser} _.
End ValidationResult.

Module IssueOptions.
Record t : Type := { expiresInSeconds : option Number.t }.
End IssueOptions.

(** ** The ports *)

(** A call to a collaborator: it runs on the world and returns or throws. *)
Definition Async (W A : Type) : Type := W -> Outcome A * W.

Module UserRepository.
Record t (W TUser : Type) : Type :=
  { findByEmail : string -> Async W (option TUser);
    findById : string -> Async W (option TUser);
    create : TUser -> Async W TUser;
    update : TUser -> Async W TUser }.
Arguments findByEmail {W TUser} _ _ _.
Arguments findById {W TUser} _ _ _.
Arguments create {W TUser} _ _ _.
Arguments update {W TUser} _ _ _.
End UserRepository.

(** Modelled from the spec: domain/ports/PasswordHasher.ts is not among the
    sources; the interface is the one of section 6,
    [hash(plaintext) -> hashString] and
    [compare(plaintext, hashString) -> boolean]. *)
Module PasswordHasher.
Record t (W : Type) : Type :=
  { hash : string -> Async W string;
    compare : string -> string -> Async W bool }.
Arguments hash {W} _ _ _.
Arguments compare {W} _ _ _ _.
End PasswordHasher.

Module TokenManager.
Record t (W : Type) : Type :=
  { issue : gmap string JsValue -> option IssueOptions.t -> Async W string;
    verify : string -> Async W VerifiedToken.t }.
Arguments issue {W} _ _ _ _.
Arguments verify {W} _ _ _.
End TokenManager.

(** Modelled from the spec: domain/ports/CacheStore.ts is not among the
    sources; the interface is the one of section 6,
    [get(key) -> value|absent], [set(key, value, ttlSeconds?) -> void] and
    [del(key) -> void], where a TTL left out means no expiration. *)
Module CacheStore.
Record t (W : Type) : Type :=
  { get : string -> Async W (option string);
    set : string -> string -> option Number.t -> Async W unit;
    del : string -> Async W unit }.
Arguments get {W} _ _ _.
Arguments set {W} _ _ _ _ _.
Arguments del {W} _ _ _.
End CacheStore.

(** ** application/AuthService.ts *)

Module LoginResult.
Record t (TUser : Type) : Type := { user : TUser; token : string }.
Arguments user {TUser} _.
Arguments token {TUser} _.
End LoginResult.

(** [AuthDeps<TUser>].  [buildUser] is a factory: it may draw a fresh
    identifier from its environment (the README uses
    [crypto.randomUUID()]), so it runs on the world like a port.  The
    accessors [getUserId], [getPasswordHash] and the claims builder read a
    user and are functions. *)
Record AuthDeps (W TUser : Type) : Type :=
  { userRepo : UserRepository.t W TUser;
    hasher : PasswordHasher.t W;
    token : TokenManager.t W;
    cache : option (CacheStore.t W);
    buildUser : RegisterInput.t -> string -> Async W TUser;
    getUserId : TUser -> string;
    getPasswordHash : TUser -> string;
    buildClaims : option (TUser -> gmap string JsValue) }.
Arguments userRepo {W TUser} _.
Arguments hasher {W TUser} _.
Arguments token {W TUser} _.
Arguments cache {W TUser} _.
Arguments buildUser {W TUser} _ _ _ _.
Arguments getUserId {W TUser} _ _.
Arguments getPasswordHash {W TUser} _ _.
Arguments buildClaims {W TUser} _.

(** The calls the service makes through its dependencies. *)
Inductive Call (TUser : Type) : Type :=
| CallFindByEmail (email : string)
| CallFindById (id : string)
| CallCreate (entity : TUser)
| CallHash (plain : string)
| CallCompare (plain hashed : string)
| CallIssue (claims : gmap string JsValue) (options : option IssueOptions.t)
| CallVerify (tok : string)
| CallCacheGet (key : string)
| CallCacheSet (key value : string) (ttlSeconds : option Number.t)
| CallBuildUser (data : RegisterInput.t) (hashedPassword : string).
Arguments CallFindByEmail {TUser} email.
Arguments CallFindById {TUser} id.
Arguments CallCreate {TUser} entity.
Arguments CallHash {TUser} plain.
Arguments CallCompare {TUser} plain hashed.
Arguments CallIssue {TUser} claims options.
Arguments CallVerify {TUser} tok.
Arguments CallCacheGet {TUser} key.
Arguments CallCacheSet {TUser} key value ttlSeconds.
Arguments CallBuildUser {TUser} data hashedPassword.

(** The state a use case runs on: the outside world and the call log. *)
Record Run (W TUser : Type) : Type :=
  { world : W; calls : list (Call TUser) }.
Arguments Build_Run {W TUser} _ _.
Arguments world {W TUser} _.
Arguments calls {W TUser} _.

(** The body of an [async] method. *)
Definition M (W TUser A : Type) : Type :=
  Run W TUser -> Outcome A * Run W TUser.

Section Monad.
Context {W TUser : Type}.

Definition ret {A} (a : A) : M W TUser A := fun r => (Returned a, r).

Definition throw {A} (e : Thrown) : M W TUser A := fun r => (Throws e, r).

Definition bind {A B} (m : M W TUser A) (k : A -> M W TUser B)
  : M W TUser B :=
  fun r =>
    match m r with
    | (Returned a, r') => k a r'
    | (Throws e, r') => (Throws e, r')
    end.

(** [await port.method(args)]: log the call, run it on the world. *)
Definition await {A} (c : Call TUser) (f : Async W A) : M W TUser A :=
  fun r =>
    let (o, w') := f (world r) in
    (o, {| world := w'; calls := calls r ++ [c] |}).

(** [try { body } catch (e) { handler }]. *)
Definition try_catch {A} (body : M W TUser A) (handler : Thrown -> M W TUser A)
  : M W TUser A :=
  fun r =>
    match body r with
    | (Returned a, r') => (Returned a, r')
    | (Throws e, r') => handler e r'
    end.

End Monad.

Notation "x <- m ;; k" := (bind m (fun x => k))
  (at level 100, m at next level, right associativity).

Section AuthService.
Context {W TUser : Type}.

(** The host clock, an integer count of milliseconds since the epoch, read
    off the world. *)
Variable Date_now : W -> Z.

Variable deps : AuthDeps W TUser.

Local Abbreviation Act := (M W TUser).

(** The collaborators as the service calls them. *)
Definition findByEmail (email : string) : Act (option TUser) :=
  await (CallFindByEmail email)
        (UserRepository.findByEmail (userRepo deps) email).

Definition findById (id : string) : Act (option TUser) :=
  await (CallFindById id) (UserRepository.findById (userRepo deps) id).

Definition create (entity : TUser) : Act TUser :=
  await (CallCreate entity) (UserRepository.create (userRepo deps) entity).

Definition hash (plain : string) : Act string :=
  await (CallHash plain) (PasswordHasher.hash (hasher deps) plain).

Definition compare (plain hashed : string) : Act bool :=
  await (CallCompare plain hashed)
        (PasswordHasher.compare (hasher deps) plain hashed).

Definition issue (claims : gmap string JsValue)
  (options : option IssueOptions.t) : Act string :=
  await (CallIssue claims options)
        (TokenManager.issue (token deps) claims options).

Definition verify (tok : string) : Act VerifiedToken.t :=
  await (CallVerify tok) (TokenManager.verify (token deps) tok).

Definition cache_get (c : CacheStore.t W) (key : string)
  : Act (option string) :=
  await (CallCacheGet key) (CacheStore.get c key).

Definition cache_set (c : CacheStore.t W) (key value : string)
  (ttlSeconds : option Number.t) : Act unit :=
  await (CallCacheSet key value ttlSeconds)
        (CacheStore.set c key value ttlSeconds).

(** [buildUser] is called without [await]; the call is logged and run on
    the world like the others. *)
Definition build_user (data : RegisterInput.t) (hashed : string)
  : Act TUser :=
  await (CallBuildUser data hashed) (buildUser deps data hashed).

(** [Date.now()]. *)
Definition now : Act Number.t :=
  fun r => (Returned (Number.of_Z (Date_now (world r))), r).

(** [register], lines 25-32. *)
Definition register (input : RegisterInput.t) : Act TUser :=
  existing <- findByEmail (RegisterInput.email input) ;;
  match existing with
  | Some _ => throw (OfAuthError (new_AuthError USER_EXISTS None))
  | None =>
      hashed <- hash (RegisterInput.password input) ;;
      entity <- build_user input hashed ;;
      created <- create entity ;;
      ret created
  end.

(** The object literal of lines 39-42:
    [{ sub: getUserId(user), ...(buildClaims ? buildClaims(user) : {}) }]. *)
Definition login_claims (user : TUser) : gmap string JsValue :=
  js_spread {[ "sub" := JsStr (getUserId deps user) ]}
            (match buildClaims deps with
             | Some f => f user
             | None => ∅
             end).

(** [login], lines 34-45. *)
Definition login (input : LoginInput.t) : Act (LoginResult.t TUser) :=
  found <- findByEmail (LoginInput.email input) ;;
  match found with
  | None => throw (OfAuthError (new_AuthError INVALID_CREDENTIALS None))
  | Some user =>
      ok <- compare (LoginInput.password input) (getPasswordHash deps user) ;;
      if negb ok
      then throw (OfAuthError (new_AuthError INVALID_CREDENTIALS None))
      else
        let claims := login_claims user in
        tk <- issue claims None ;;
        ret {| LoginResult.user := user; LoginResult.token := tk |}
  end.

(** [blacklistKey], lines 70-72. *)
Definition blacklistKey (jti : option string) (tok : string) : string :=
  "auth:blacklist:" +:+ js_nullish jti tok.

(** [computeTtlSeconds], lines 74-79. *)
Definition computeTtlSeconds (exp : option Number.t)
  : Act (option Number.t) :=
  if negb (js_truthy_number exp) then ret None
  else
    match exp with
    | None => ret None
    | Some e =>
        t <- now ;;
        let ms := Number.sub (Number.mul e (Number.of_Z 1000)) t in
        let s := Number.floor (Number.div ms (Number.of_Z 1000)) in
        ret (Some (if Number.lt (Number.of_Z 0) s then s else Number.of_Z 1))
    end.

(** The [{ valid: false }] of the [catch] branch. *)
Definition invalid : ValidationResult.t TUser :=
  {| ValidationResult.valid := false;
     ValidationResult.claims := None;
     ValidationResult.user := None |}.

(** The [try] block of [validate], lines 49-56. *)
Definition validate_try (tok : string) : Act (ValidationResult.t TUser) :=
  vt <- verify tok ;;
  _ <- match cache deps with
       | Some c =>
           let key := blacklistKey (VerifiedToken.jti vt) tok in
           b <- cache_get c key ;;
           if js_truthy_string b
           then throw (OfAuthError (new_AuthError TOKEN_BLACKLISTED None))
           else ret tt
       | None => ret tt
       end ;;
  user <- findById (js_String (js_prop (VerifiedToken.claims vt) "sub")) ;;
  ret {| ValidationResult.valid := true;
         ValidationResult.claims := Some (VerifiedToken.claims vt);
         ValidationResult.user := Some user |}.

(** [validate], lines 47-60. *)
Definition validate (tok : string) : Act (ValidationResult.t TUser) :=
  try_catch (validate_try tok) (fun _ => ret invalid).

(** [logout], lines 62-68. *)
Definition logout (tok : string) : Act unit :=
  match cache deps with
  | None => ret tt
  | Some c =>
      vt <- verify tok ;;
      let key := blacklistKey (VerifiedToken.jti vt) tok in
      ttl <- computeTtlSeconds (VerifiedToken.exp vt) ;;
      cache_set c key "1" ttl
  end.

End AuthService.

(** ** The paths through [validate] and what is assumed of a cache *)

Section Paths.
Context {W TUser : Type}.
Variable deps : AuthDeps W TUser.

(** The revocation check of lines 50-54 lets a verified token through and
    takes the world from [w1] to [w2]: either no cache is configured, or
    the lookup at the token's key returns a falsy value. *)
Definition revocation_pass (vt : VerifiedToken.t) (tok : string)
  (w1 w2 : W) : Prop :=
  match cache deps with
  | None => w2 = w1
  | Some c =>
      exists b,
        CacheStore.get c (blacklistKey (VerifiedToken.jti vt) tok) w1
          = (Returned b, w2)
        /\ js_truthy_string b = false
  end.




End Paths.

(** ** In-memory collaborators

    The stand-ins of [tests/auth.spec.ts] ([MemoryRepo], [SimpleHasher],
    [MemoryCache]) over one record of maps, a token manager that accepts
    the tokens of a fixed table, and a repository whose lookups by id
    fail. *)

Module Demo.

Record User : Type :=
  { id : string; email : string; passwordHash : string }.

Record World : Type :=
  { byId : gmap string User;
    byEmail : gmap string User;
    entries : gmap string string;
    serial : nat;
    clock : Z }.

Definition with_users (w : World) (i e : gmap string User) : World :=
  {| byId := i; byEmail := e; entries := entries w;
     serial := serial w; clock := clock w |}.

Definition with_entries (w : World) (m : gmap string string) : World :=
  {| byId := byId w; byEmail := byEmail w; entries := m;
     serial := serial w; clock := clock w |}.

Definition with_serial (w : World) (n : nat) : World :=
  {| byId := byId w; byEmail := byEmail w; entries := entries w;
     serial := n; clock := clock w |}.

Definition store (u : User) : Async World User :=
  fun w =>
    (Returned u,
     with_users w (<[id u := u]> (byId w)) (<[email u := u]> (byEmail w))).

Definition memoryRepo : UserRepository.t World User :=
  {| UserRepository.findByEmail := fun e w => (Returned (byEmail w !! e), w);
     UserRepository.findById := fun i w => (Returned (byId w !! i), w);
     UserRepository.create := store;
     UserRepository.update := store |}.

Definition brokenRepo : UserRepository.t World User :=
  {| UserRepository.findByEmail := fun e w => (Returned (byEmail w !! e), w);
     UserRepository.findById :=
       fun _ w => (Throws (ForeignError "connection lost"), w);
     UserRepository.create := store;
     UserRepository.update := store |}.

Definition simpleHasher : PasswordHasher.t World :=
  {| PasswordHasher.hash := fun plain w => (Returned ("hashed:" +:+ plain), w);
     PasswordHasher.compare :=
       fun plain hashed w =>
         (Returned (String.eqb hashed ("hashed:" +:+ plain)), w) |}.

Definition memoryCache : CacheStore.t World :=
  {| CacheStore.get := fun k w => (Returned (entries w !! k), w);
     CacheStore.set :=
       fun k v _ w => (Returned tt, with_entries w (<[k := v]> (entries w)));
     CacheStore.del :=
       fun k w => (Returned tt, with_entries w (delete k (entries w))) |}.

(** A verified token for [sub]; an expiration is given as a whole number
    of seconds. *)
Definition token_of (sub : string) (j : option string) (e : option Z)
  : VerifiedToken.t :=
  {| VerifiedToken.claims := {[ "sub" := JsStr sub ]};
     VerifiedToken.jti := j;
     VerifiedToken.exp := Number.of_Z <$> e |}.

(** The tokens the token manager accepts: a live one, one without [jti]
    and [exp], one whose [exp] is the epoch itself, one for a subject the
    store does not have. *)
Definition known : gmap string VerifiedToken.t :=
  {[ "t-live" := token_of "u0" (Some "j1") (Some 1700000300);
     "t-raw" := token_of "u0" None None;
     "t-epoch" := token_of "u0" (Some "j2") (Some 0);
     "t-ghost" := token_of "u9" (Some "j3") (Some 1700000300) ]}.

Definition tableToken : TokenManager.t World :=
  {| TokenManager.issue :=
       fun _ _ w =>
         (Returned ("t" +:+ pretty (serial w)), with_serial w (S (serial w)));
     TokenManager.verify :=
       fun tok w =>
         match known !! tok with
         | Some vt => (Returned vt, w)
         | None => (Throws (ForeignError "invalid token"), w)
         end |}.

Definition freshUser (data : RegisterInput.t) (hashed : string)
  : Async World User :=
  fun w =>
    (Returned {| id := "u" +:+ pretty (serial w);
                 email := RegisterInput.email data;
                 passwordHash := hashed |},
     with_serial w (S (serial w))).

Definition make (repo : UserRepository.t World User)
  (c : option (CacheStore.t World))
  (extra : option (User -> gmap string JsValue)) : AuthDeps World User :=
  {| userRepo := repo; hasher := simpleHasher; token := tableToken;
     cache := c; buildUser := freshUser; getUserId := id;
     getPasswordHash := passwordHash; buildClaims := extra |}.

Definition deps : AuthDeps World User := make memoryRepo (Some memoryCache) None.

Definition deps_no_cache : AuthDeps World User := make memoryRepo None None.

Definition deps_broken_store : AuthDeps World User :=
  make brokenRepo None None.

(** A claims builder that returns a [sub] of its own. *)
Definition deps_sub_claim : AuthDeps World User :=
  make memoryRepo (Some memoryCache)
       (Some (fun u => {[ "sub" := JsStr "root"; "email" := JsStr (email u) ]})).

Definition alice : User :=
  {| id := "u0"; email := "a@a.com"; passwordHash := "hashed:secret" |}.

(** One registered user, an empty cache. *)
Definition w0 : World :=
  {| byId := {[ "u0" := alice ]};
     byEmail := {[ "a@a.com" := alice ]};
     entries := ∅;
     serial := 1;
     clock := 1700000000000 |}.

Definition r0 : Run World User := {| world := w0; calls := [] |}.

(** Inputs of the use cases. *)
Definition alice_login : LoginInput.t :=
  {| LoginInput.email := "a@a.com"; LoginInput.password := "secret" |}.

Definition alice_again : RegisterInput.t :=
  {| RegisterInput.email := "a@a.com";
     RegisterInput.password := "other";
     RegisterInput.attributes := None |}.

Definition bob : RegisterInput.t :=
  {| RegisterInput.email := "b@b.com";
     RegisterInput.password := "p";
     RegisterInput.attributes := None |}.

End Demo.

(** ** Reading the call log *)

(** The collaborator a call goes to. *)
Inductive Port : Type :=
| PortStore
| PortHasher
| PortToken
| PortCache
| PortBuilder.

Definition port_of {TUser : Type} (c : Call TUser) : Port :=
  match c with
  | CallFindByEmail _ | CallFindById _ | CallCreate _ => PortStore
  | CallHash _ | CallCompare _ _ => PortHasher
  | CallIssue _ _ | CallVerify _ => PortToken
  | CallCacheGet _ | CallCacheSet _ _ _ => PortCache
  | CallBuildUser _ _ => PortBuilder
  end.

(** The calls that ask a collaborator to store something. *)
Definition is_write {TUser : Type} (c : Call TUser) : bool :=
  match c with
  | CallCreate _ | CallCacheSet _ _ _ => true
  | _ => false
  end.

Definition is_issue {TUser : Type} (c : Call TUser) : bool :=
  match c with
  | CallIssue _ _ => true
  | _ => false
  end.

(** The outcome of a call, with a function applied to what it returned. *)
Definition Outcome_map {A B : Type} (f : A -> B) (o : Outcome A) : Outcome B :=
  match o with
  | Returned a => Returned (f a)
  | Throws e => Throws e
  end.

(** ** What a composition of use cases needs of the collaborators *)

Section Collaborators.
Context {W TUser : Type}.
Variable deps : AuthDeps W TUser.

(** [email_of] reads the email a user is stored under. The store finds by
    email, right after [create], the user that [create] returned. *)
Definition finds_created (email_of : TUser -> string) : Prop :=
  forall (entity created : TUser) (w w1 : W),
    UserRepository.create (userRepo deps) entity w = (Returned created, w1) ->
    fst (UserRepository.findByEmail (userRepo deps) (email_of entity) w1)
    = Returned (Some created).

(** The store returns from [create] a user with the password hash of the
    entity it was given. *)
Definition keeps_hash : Prop :=
  forall (entity created : TUser) (w w1 : W),
    UserRepository.create (userRepo deps) entity w = (Returned created, w1) ->
    getPasswordHash deps created = getPasswordHash deps entity.

(** [buildUser] puts the email of the input and the hash it is given into
    the user it builds. *)
Definition builds_from (email_of : TUser -> string) : Prop :=
  forall (data : RegisterInput.t) (hashed : string) (entity : TUser)
         (w w1 : W),
    buildUser deps data hashed w = (Returned entity, w1) ->
    email_of entity = RegisterInput.email data
    /\ getPasswordHash deps entity = hashed.

(** A hash that [hash] returned for a password compares equal to that
    password, in whatever state the hasher is asked. *)
Definition compares_own_hash : Prop :=
  forall (plain hashed : string) (w w1 : W),
    PasswordHasher.hash (hasher deps) plain w = (Returned hashed, w1) ->
    forall w2 : W,
      fst (PasswordHasher.compare (hasher deps) plain hashed w2)
      = Returned true.

(** The token manager verifies a token it has just issued for [claims],
    without options as [login] issues it, to these claims. *)
Definition verifies_issued (claims : gmap string JsValue) : Prop :=
  forall (tk : string) (w w1 : W),
    TokenManager.issue (token deps) claims None w = (Returned tk, w1) ->
    exists vt : VerifiedToken.t,
      fst (TokenManager.verify (token deps) tk w1) = Returned vt
      /\ VerifiedToken.claims vt = claims.

End Collaborators.

(** ** A token manager for the in-memory collaborators

    The token is the subject itself: [issue] returns [String(claims.sub)]
    and [verify] returns the claims [{ sub: token }], without [jti] or
    [exp]; the empty token is rejected. *)

Module Echo.

Definition echoToken : TokenManager.t Demo.World :=
  {| TokenManager.issue :=
       fun claims _ w => (Returned (js_String (js_prop claims "sub")), w);
     TokenManager.verify :=
       fun tok w =>
         match tok with
         | EmptyString => (Throws (ForeignError "invalid token"), w)
         | String _ _ => (Returned (Demo.token_of tok None None), w)
         end |}.

Definition make (c : option (CacheStore.t Demo.World))
  : AuthDeps Demo.World Demo.User :=
  {| userRepo := Demo.memoryRepo; hasher := Demo.simpleHasher;
     token := echoToken; cache := c; buildUser := Demo.freshUser;
     getUserId := Demo.id; getPasswordHash := Demo.passwordHash;
     buildClaims := None |}.

Definition deps : AuthDeps Demo.World Demo.User := make (Some Demo.memoryCache).

Definition deps_no_cache : AuthDeps Demo.World Demo.User := make None.

(** A cache whose operations all fail. *)
Definition downCache : CacheStore.t Demo.World :=
  {| CacheStore.get := fun _ w => (Throws (ForeignError "cache down"), w);
     CacheStore.set := fun _ _ _ w => (Throws (ForeignError "cache down"), w);
     CacheStore.del := fun _ w => (Throws (ForeignError "cache down"), w) |}.

(** A hasher that fails to hash. *)
Definition downHasher : PasswordHasher.t Demo.World :=
  {| PasswordHasher.hash :=
       fun _ w => (Throws (ForeignError "hasher down"), w);
     PasswordHasher.compare := PasswordHasher.compare Demo.simpleHasher |}.

Definition deps_down_hasher : AuthDeps Demo.World Demo.User :=
  {| userRepo := Demo.memoryRepo; hasher := downHasher;
     token := echoToken; cache := None; buildUser := Demo.freshUser;
     getUserId := Demo.id; getPasswordHash := Demo.passwordHash;
     buildClaims := None |}.

Definition deps_down_cache : AuthDeps Demo.World Demo.User :=
  make (Some downCache).



(** A token manager whose verified claims carry no [sub]. *)
Definition anonToken : TokenManager.t Demo.World :=
  {| TokenManager.issue := TokenManager.issue echoToken;
     TokenManager.verify :=
       fun _ w =>
         (Returned {| VerifiedToken.claims := ∅;
                      VerifiedToken.jti := None;
                      VerifiedToken.exp := None |}, w) |}.

Definition deps_anon : AuthDeps Demo.World Demo.User :=
  {| userRepo := Demo.memoryRepo; hasher := Demo.simpleHasher;
     token := anonToken; cache := None;
     buildUser := Demo.freshUser;
     getUserId := Demo.id; getPasswordHash := Demo.passwordHash;
     buildClaims := None |}.

(** The world [Demo.w0] with a marker for token [u0] in the cache. *)
Definition w_revoked : Demo.World :=
  Demo.with_entries Demo.w0 {[ "auth:blacklist:u0" := "1" ]}.

(** The world [Demo.w0] with an empty marker for token [u0]. *)
Definition w_blank_marker : Demo.World :=
  Demo.with_entries Demo.w0 {[ "auth:blacklist:u0" := EmptyString ]}.

End Echo.

(** ** Stepping through a use case *)

Section Steps.
Context {W TUser : Type}.

Lemma await_returned {A} (c : Call TUser) (f : Async W A) (r : Run W TUser)
  (a : A) (w1 : W) :
  f (world r) = (Returned a, w1) ->
  await c f r = (Returned a, {| world := w1; calls := calls r ++ [c] |}).
Proof. intros E. unfold await. now rewrite E. Qed.

Lemma await_throws {A} (c : Call TUser) (f : Async W A) (r : Run W TUser)
  (e : Thrown) (w1 : W) :
  f (world r) = (Throws e, w1) ->
  await c f r = (Throws e, {| world := w1; calls := calls r ++ [c] |}).
Proof. intros E. unfold await. now rewrite E. Qed.

Lemma bind_returned {A B} (m : M W TUser A) (k : A -> M W TUser B)
  (r r1 : Run W TUser) (a : A) :
  m r = (Returned a, r1) -> bind m k r = k a r1.
Proof. intros E. unfold bind. now rewrite E. Qed.

Lemma bind_throws {A B} (m : M W TUser A) (k : A -> M W TUser B)
  (r r1 : Run W TUser) (e : Thrown) :
  m r = (Throws e, r1) -> bind m k r = (Throws e, r1).
Proof. intros E. unfold bind. now rewrite E. Qed.

Lemma bind_assoc {A B C} (m : M W TUser A) (k : A -> M W TUser B)
  (h : B -> M W TUser C) (r : Run W TUser) :
  bind (bind m k) h r = bind m (fun a => bind (k a) h) r.
Proof. unfold bind. destruct (m r) as [[a | e] r1]; reflexivity. Qed.

Lemma bind_ret {A B} (a : A) (k : A -> M W TUser B) (r : Run W TUser) :
  bind (ret a) k r = k a r.
Proof. reflexivity. Qed.



End Steps.

(** Run the next awaited call with the equation [E] that says how the
    collaborator answers. *)
Ltac answer E :=
  cbv iota beta; rewrite ?bind_assoc;
  match goal with
  | |- context [bind (await ?c ?f) ?k ?r] =>
      first
        [ rewrite (bind_returned (await c f) k r _ _
                     (await_returned c f r _ _ E))
        | rewrite (bind_throws (await c f) k r _ _
                     (await_throws c f r _ _ E)) ]
  | |- context [await ?c ?f ?r] =>
      first
        [ rewrite (await_returned c f r _ _ E)
        | rewrite (await_throws c f r _ _ E) ]
  end;
  cbn [world calls].

(** ** The time-to-live of a revocation marker *)

Section Ttl.
Context {W TUser : Type}.
Variable Date_now : W -> Z.

(** An expiration that is neither a zero nor [NaN] gives
    [floor((exp * 1000 - now) / 1000)], computed on numbers, when that is
    above [0], and [1] otherwise. *)
Lemma computeTtlSeconds_truthy (e : Number.t) (r : Run W TUser) :
  (forall sign : bool, e <> S754_zero sign) ->
  e <> S754_nan ->
  let ms := Number.sub (Number.mul e (Number.of_Z 1000))
              (Number.of_Z (Date_now (world r))) in
  let s := Number.floor (Number.div ms (Number.of_Z 1000)) in
  computeTtlSeconds (TUser := TUser) Date_now (Some e) r
  = (Returned (Some (if Number.lt (Number.of_Z 0) s then s
                     else Number.of_Z 1)), r).
Proof.
  intros Hz Hn. cbv zeta.
  destruct e as [sign | sign | | sign m ex].
  - destruct (Hz sign eq_refl).
  - reflexivity.
  - contradiction.
  - reflexivity.
Qed.




Lemma computeTtlSeconds_returns (exp : option Number.t) (r : Run W TUser) :
  exists ttl : option Number.t,
    computeTtlSeconds (TUser := TUser) Date_now exp r = (Returned ttl, r).
Proof.
  destruct exp as [[sign | sign | | sign m ex] |]; eexists; reflexivity.
Qed.

End Ttl.

(** ** The claims mapping of [login] *)

Section Claims.
Context {W TUser : Type}.
Variable deps : AuthDeps W TUser.

Lemma login_claims_sub_builder (user : TUser)
  (f : TUser -> gmap string JsValue) (v : JsValue) :
  buildClaims deps = Some f ->
  f user !! "sub" = Some v ->
  login_claims deps user !! "sub" = Some v.
Proof.
  intros Hf Hv. unfold login_claims, js_spread. rewrite Hf.
  now apply lookup_union_Some_l.
Qed.

Lemma login_claims_sub_no_builder (user : TUser) :
  buildClaims deps = None ->
  login_claims deps user !! "sub" = Some (JsStr (getUserId deps user)).
Proof.
  intros Hf. unfold login_claims, js_spread. rewrite Hf.
  rewrite lookup_union_r by apply lookup_empty.
  apply lookup_singleton_eq.
Qed.

Lemma login_claims_sub_untouched (user : TUser)
  (f : TUser -> gmap string JsValue) :
  buildClaims deps = Some f ->
  f user !! "sub" = None ->
  login_claims deps user !! "sub" = Some (JsStr (getUserId deps user)).
Proof.
  intros Hf Hv. unfold login_claims, js_spread. rewrite Hf.
  rewrite lookup_union_r by exact Hv.
  apply lookup_singleton_eq.
Qed.

End Claims.

(** ** The use cases, for arbitrary collaborators *)

Section Properties.
Context {W TUser : Type}.
Variable Date_now : W -> Z.
Variable deps : AuthDeps W TUser.

(** C5. When the user store answers the existence read with a user,
    [register] throws [AuthError USER_EXISTS]; the only call it made is that
    read (no [hash], no [buildUser], no [create]), and the world is the one
    the read left, so whatever the store held for the email it still
    holds. *)
Theorem register_existing_email_rejected (input : RegisterInput.t)
  (r : Run W TUser) (existing : TUser) (w1 : W) :
  UserRepository.findByEmail (userRepo deps) (RegisterInput.email input)
    (world r) = (Returned (Some existing), w1) ->
  register deps input r
  = (Throws (OfAuthError {| AuthError.code := USER_EXISTS;
                            AuthError.message := "USER_EXISTS" |}),
     {| world := w1;
        calls := calls r ++ [CallFindByEmail (RegisterInput.email input)] |}).
Proof.
  intros E. unfold register, findByEmail.
  answer E. reflexivity.
Qed.

(** C6. [login] throws the same [AuthError INVALID_CREDENTIALS] value when
    the store has no user for the email and when the hasher's [compare]
    of the password with the stored hash returns [false]. *)
Theorem login_rejections_identical (input : LoginInput.t) (r : Run W TUser) :
  let rejection :=
    Throws (OfAuthError {| AuthError.code := INVALID_CREDENTIALS;
                           AuthError.message := "INVALID_CREDENTIALS" |}) in
  (forall w1 : W,
     UserRepository.findByEmail (userRepo deps) (LoginInput.email input)
       (world r) = (Returned None, w1) ->
     fst (login deps input r) = rejection)
  /\
  (forall (user : TUser) (w1 w2 : W),
     UserRepository.findByEmail (userRepo deps) (LoginInput.email input)
       (world r) = (Returned (Some user), w1) ->
     PasswordHasher.compare (hasher deps) (LoginInput.password input)
       (getPasswordHash deps user) w1 = (Returned false, w2) ->
     fst (login deps input r) = rejection).
Proof.
  cbv zeta. split.
  - intros w1 E. unfold login, findByEmail. answer E. reflexivity.
  - intros user w1 w2 E C. unfold login, findByEmail, compare.
    answer E. answer C. reflexivity.
Qed.

(** C7. With a cache configured, a [verify] that throws makes [logout]
    throw the very same value; [verify] is the only call made, so nothing
    is written to the cache and the world is the one [verify] left. *)
Theorem logout_verify_failure_propagates (c : CacheStore.t W) (tok : string)
  (r : Run W TUser) (e : Thrown) (w1 : W) :
  cache deps = Some c ->
  TokenManager.verify (token deps) tok (world r) = (Throws e, w1) ->
  logout Date_now deps tok r
  = (Throws e, {| world := w1; calls := calls r ++ [CallVerify tok] |}).
Proof.
  intros Hc E. unfold logout, verify. rewrite Hc.
  answer E. reflexivity.
Qed.

(** C10. A [login] that succeeds made exactly three calls: the lookup by
    email, the password comparison, and one [issue] that was given the
    claims mapping and no options, hence no [expiresInSeconds]. *)
Theorem login_issue_without_options (input : LoginInput.t)
  (r r1 : Run W TUser) (res : LoginResult.t TUser) :
  login deps input r = (Returned res, r1) ->
  calls r1
  = (calls r ++
     [CallFindByEmail (LoginInput.email input);
      CallCompare (LoginInput.password input)
        (getPasswordHash deps (LoginResult.user res));
      CallIssue (login_claims deps (LoginResult.user res)) None])%list.
Proof.
  unfold login, findByEmail, compare, issue, bind, await, throw, ret.
  cbn [world calls].
  destruct (UserRepository.findByEmail _ _ _) as [[[user |] | e] w1];
    try discriminate.
  destruct (PasswordHasher.compare _ _ _ _) as [[[|] | e] w2];
    cbn; try discriminate.
  destruct (TokenManager.issue _ _ _ _) as [[tk | e] w3];
    cbn; try discriminate.
  intros [= <- <-]. cbn. now rewrite <- !app_assoc.
Qed.


(** C9. A token that verifies and passes the revocation check, for whose
    [sub] (coerced with [String]) the store returns no user, validates:
    [{ valid: true, claims, user: null }]. *)
Theorem validate_subject_gone (tok : string) (r : Run W TUser)
  (vt : VerifiedToken.t) (w1 w2 w3 : W) :
  TokenManager.verify (token deps) tok (world r) = (Returned vt, w1) ->
  revocation_pass deps vt tok w1 w2 ->
  UserRepository.findById (userRepo deps)
    (js_String (js_prop (VerifiedToken.claims vt) "sub")) w2
    = (Returned None, w3) ->
  fst (validate deps tok r)
  = Returned {| ValidationResult.valid := true;
                ValidationResult.claims := Some (VerifiedToken.claims vt);
                ValidationResult.user := Some None |}.
Proof.
  intros V P L. unfold validate, try_catch, validate_try, verify, findById.
  answer V. unfold revocation_pass in P.
  destruct (cache deps) as [c |].
  - destruct P as (b & G & Hb). unfold cache_get.
    answer G. rewrite Hb, bind_ret.
    answer L. reflexivity.
  - subst w2. rewrite bind_ret.
    answer L. reflexivity.
Qed.

(** What [logout] writes for an expiration that is neither a zero nor
    [NaN]: the marker goes under [blacklistKey (jti, token)] with
    [floor((exp * 1000 - now) / 1000)] when that is above [0] and with [1]
    otherwise; the clock is read after [verify] has returned. *)
Lemma logout_writes_ttl (c : CacheStore.t W) (tok : string)
  (r : Run W TUser) (vt : VerifiedToken.t) (w1 : W) (e : Number.t) :
  cache deps = Some c ->
  TokenManager.verify (token deps) tok (world r) = (Returned vt, w1) ->
  VerifiedToken.exp vt = Some e ->
  (forall sign : bool, e <> S754_zero sign) ->
  e <> S754_nan ->
  let ms := Number.sub (Number.mul e (Number.of_Z 1000))
              (Number.of_Z (Date_now w1)) in
  let s := Number.floor (Number.div ms (Number.of_Z 1000)) in
  calls (snd (logout Date_now deps tok r))
  = (calls r ++
     [CallVerify tok;
      CallCacheSet (blacklistKey (VerifiedToken.jti vt) tok) "1"
        (Some (if Number.lt (Number.of_Z 0) s then s
               else Number.of_Z 1))])%list.
Proof.
  intros Hc V He Hz Hn. cbv zeta. unfold logout, verify. rewrite Hc.
  answer V. rewrite He.
  rewrite (bind_returned _ _ _ _ _
             (computeTtlSeconds_truthy Date_now e _ Hz Hn)).
  unfold cache_set, await. cbn [world calls].
  destruct (CacheStore.set c _ _ _ w1) as [o w2].
  cbn. now rewrite <- app_assoc.
Qed.


(** C8, as amended. Without a cache [logout] returns at once: no call is
    made, neither [verify] nor a write, and the state is untouched.  A
    [validate] that follows, on a token that still verifies and for which
    the lookup of the user returns, makes exactly the two calls [verify]
    and [findById] (no cache read) and returns [{ valid: true }] with the
    verified claims and what the store returned. *)
Theorem no_cache_logout_then_validate (tok : string) (r : Run W TUser) :
  cache deps = None ->
  logout Date_now deps tok r = (Returned tt, r)
  /\
  (forall (vt : VerifiedToken.t) (w1 : W) (u : option TUser) (w2 : W),
     TokenManager.verify (token deps) tok (world r) = (Returned vt, w1) ->
     UserRepository.findById (userRepo deps)
       (js_String (js_prop (VerifiedToken.claims vt) "sub")) w1
       = (Returned u, w2) ->
     validate deps tok (snd (logout Date_now deps tok r))
     = (Returned {| ValidationResult.valid := true;
                    ValidationResult.claims := Some (VerifiedToken.claims vt);
                    ValidationResult.user := Some u |},
        {| world := w2;
           calls := (calls r ++
                     [CallVerify tok;
                      CallFindById
                        (js_String
                           (js_prop (VerifiedToken.claims vt) "sub"))])%list
        |})).
Proof.
  intros Hc.
  assert (logout Date_now deps tok r = (Returned tt, r)) as Hl.
  { unfold logout. now rewrite Hc. }
  split; [exact Hl |].
  intros vt w1 u w2 V L. rewrite Hl. cbn [snd].
  unfold validate, try_catch, validate_try, verify, findById.
  answer V. rewrite Hc, bind_ret.
  answer L. cbn. now rewrite <- app_assoc.
Qed.

End Properties.

(** ** The in-memory collaborators *)



(** ** The use cases on the in-memory collaborators *)

(** A second registration under an email the store already has is rejected
    and the store keeps the one user it had for that email. *)
Example register_twice_in_memory :
  let first := register Demo.deps Demo.bob Demo.r0 in
  let second := register Demo.deps Demo.bob (snd first) in
  let bob_user := {| Demo.id := "u1"; Demo.email := "b@b.com";
                     Demo.passwordHash := "hashed:p" |} in
  fst first = Returned bob_user
  /\ fst second
     = Throws (OfAuthError {| AuthError.code := USER_EXISTS;
                              AuthError.message := "USER_EXISTS" |})
  /\ world (snd second) = world (snd first)
  /\ Demo.byEmail (world (snd second)) !! "b@b.com" = Some bob_user
  /\ size (Demo.byId (world (snd second))) = 2%nat.
Proof. vm_compute. repeat split; reflexivity. Qed.

(** C1. The claim fails on the code: with a claims builder that returns a
    [sub] key, the mapping handed to [issue] carries the builder's [sub],
    not the id that [getUserId] returns for the user.  In the object
    literal of lines 39-42 the spread comes after [sub], so the builder's
    entry is the one that stays. *)
Theorem login_sub_overridden_by_buildClaims :
  let run := login Demo.deps_sub_claim Demo.alice_login Demo.r0 in
  fst run = Returned {| LoginResult.user := Demo.alice;
                        LoginResult.token := "t1" |}
  /\ getUserId Demo.deps_sub_claim Demo.alice = "u0"
  /\ exists claims : gmap string JsValue,
       calls (snd run)
       = [CallFindByEmail "a@a.com";
          CallCompare "secret" "hashed:secret";
          CallIssue claims None]
       /\ claims !! "sub" = Some (JsStr "root").
Proof.
  cbv zeta. split; [reflexivity |]. split; [reflexivity |].
  exists (login_claims Demo.deps_sub_claim Demo.alice).
  split; [reflexivity |].
  apply login_claims_sub_builder
    with (f := fun u => {[ "sub" := JsStr "root";
                           "email" := JsStr (Demo.email u) ]}).
  - reflexivity.
  - apply lookup_insert_eq.
Qed.

(** C2. The claim fails on the code when the expiration is [0]: [!exp]
    takes it for a missing one, and [logout] writes the marker without a
    time-to-live although the verified token carries an expiration that is
    long past.  For every expiration that is neither a zero nor [NaN] the
    time-to-live is the floor or the clamp to [1]
    ([computeTtlSeconds_truthy]). *)
Theorem logout_epoch_expiry_without_ttl :
  (forall r : Run Demo.World Demo.User,
     computeTtlSeconds Demo.clock (Some (Number.of_Z 0)) r
     = (Returned None, r))
  /\ fst (TokenManager.verify Demo.tableToken "t-epoch" Demo.w0)
     = Returned (Demo.token_of "u0" (Some "j2") (Some 0))
  /\ fst (logout Demo.clock Demo.deps "t-epoch" Demo.r0) = Returned tt
  /\ calls (snd (logout Demo.clock Demo.deps "t-epoch" Demo.r0))
     = [CallVerify "t-epoch"; CallCacheSet "auth:blacklist:j2" "1" None].
Proof. repeat split; reflexivity. Qed.

(** The same [logout] on a token that expires in 300 seconds. *)
Example logout_live_token_ttl :
  calls (snd (logout Demo.clock Demo.deps "t-live" Demo.r0))
  = [CallVerify "t-live";
     CallCacheSet "auth:blacklist:j1" "1" (Some (Number.of_Z 300))].
Proof. reflexivity. Qed.

(** Beyond [2 ^ 53] the product [exp * 1000] is rounded: the time-to-live
    for [exp = 123456789012345] at the clock [1700000000000] is
    [123455089012344], one less than the whole seconds left. *)
Example computeTtlSeconds_rounds :
  fst (computeTtlSeconds Demo.clock (Some (Number.of_Z 123456789012345))
         Demo.r0)
  = Returned (Some (Number.of_Z 123455089012344)).
Proof. vm_compute. reflexivity. Qed.

(** C8, counterexample. No cache is configured, [logout] is a no-op and
    the token still verifies, yet [validate] returns [{ valid: false }]:
    the lookup of the user throws and the [catch] turns that into the
    negative result. *)
Lemma no_cache_validate_store_failure :
  cache Demo.deps_broken_store = None
  /\ logout Demo.clock Demo.deps_broken_store "t-live" Demo.r0
     = (Returned tt, Demo.r0)
  /\ fst (TokenManager.verify (token Demo.deps_broken_store) "t-live" Demo.w0)
     = Returned (Demo.token_of "u0" (Some "j1") (Some 1700000300))
  /\ fst (validate Demo.deps_broken_store "t-live"
            (snd (logout Demo.clock Demo.deps_broken_store "t-live" Demo.r0)))
     = Returned {| ValidationResult.valid := false;
                   ValidationResult.claims := None;
                   ValidationResult.user := None |}.
Proof. repeat split; reflexivity. Qed.

(** ** The theorems at concrete inputs *)

Lemma register_existing_email_rejected_witness :
  register Demo.deps Demo.alice_again Demo.r0
  = (Throws (OfAuthError {| AuthError.code := USER_EXISTS;
                            AuthError.message := "USER_EXISTS" |}),
     {| world := Demo.w0; calls := [CallFindByEmail "a@a.com"] |}).
Proof.
  apply (register_existing_email_rejected Demo.deps Demo.alice_again Demo.r0
           Demo.alice Demo.w0).
  reflexivity.
Defined.

Lemma login_rejections_identical_witness :
  fst (login Demo.deps
         {| LoginInput.email := "nobody@a.com";
            LoginInput.password := "secret" |} Demo.r0)
  = fst (login Demo.deps
           {| LoginInput.email := "a@a.com";
              LoginInput.password := "wrong" |} Demo.r0).
Proof.
  transitivity
    (@Throws (LoginResult.t Demo.User)
       (OfAuthError {| AuthError.code := INVALID_CREDENTIALS;
                       AuthError.message := "INVALID_CREDENTIALS" |})).
  - apply (proj1 (login_rejections_identical Demo.deps
                    {| LoginInput.email := "nobody@a.com";
                       LoginInput.password := "secret" |} Demo.r0)
             Demo.w0).
    reflexivity.
  - symmetry.
    apply (proj2 (login_rejections_identical Demo.deps
                    {| LoginInput.email := "a@a.com";
                       LoginInput.password := "wrong" |} Demo.r0)
             Demo.alice Demo.w0 Demo.w0).
    + reflexivity.
    + reflexivity.
Defined.

Lemma logout_verify_failure_propagates_witness :
  logout Demo.clock Demo.deps "garbage" Demo.r0
  = (Throws (ForeignError "invalid token"),
     {| world := Demo.w0; calls := [CallVerify "garbage"] |}).
Proof.
  apply (logout_verify_failure_propagates Demo.clock Demo.deps
           Demo.memoryCache "garbage" Demo.r0
           (ForeignError "invalid token") Demo.w0).
  - reflexivity.
  - reflexivity.
Defined.

Lemma login_issue_without_options_witness :
  calls (snd (login Demo.deps Demo.alice_login Demo.r0))
  = [CallFindByEmail "a@a.com";
     CallCompare "secret" "hashed:secret";
     CallIssue (login_claims Demo.deps Demo.alice) None].
Proof.
  apply (login_issue_without_options Demo.deps Demo.alice_login Demo.r0
           (snd (login Demo.deps Demo.alice_login Demo.r0))
           {| LoginResult.user := Demo.alice; LoginResult.token := "t1" |}).
  reflexivity.
Defined.


Lemma validate_subject_gone_witness :
  fst (validate Demo.deps "t-ghost" Demo.r0)
  = Returned {| ValidationResult.valid := true;
                ValidationResult.claims := Some {[ "sub" := JsStr "u9" ]};
                ValidationResult.user := Some None |}.
Proof.
  apply (validate_subject_gone Demo.deps "t-ghost" Demo.r0
           (Demo.token_of "u9" (Some "j3") (Some 1700000300))
           Demo.w0 Demo.w0 Demo.w0).
  - reflexivity.
  - exists None. split; reflexivity.
  - reflexivity.
Defined.


Lemma no_cache_logout_then_validate_witness :
  logout Demo.clock Demo.deps_no_cache "t-live" Demo.r0
  = (Returned tt, Demo.r0)
  /\ fst (validate Demo.deps_no_cache "t-live"
            (snd (logout Demo.clock Demo.deps_no_cache "t-live" Demo.r0)))
     = Returned {| ValidationResult.valid := true;
                   ValidationResult.claims := Some {[ "sub" := JsStr "u0" ]};
                   ValidationResult.user := Some (Some Demo.alice) |}.
Proof.
  destruct (no_cache_logout_then_validate Demo.clock Demo.deps_no_cache
              "t-live" Demo.r0 eq_refl) as [Hl Hv].
  split; [exact Hl |].
  rewrite (Hv (Demo.token_of "u0" (Some "j1") (Some 1700000300)) Demo.w0
              (Some Demo.alice) Demo.w0 eq_refl eq_refl).
  reflexivity.
Defined.

(** ** Further properties of the use cases *)

(** Flatten the call log of a finished run into [calls r ++ l]. *)
Ltac flat_log := cbn [world calls fst snd]; rewrite <- ?app_assoc; cbn [app].

Section Register.
Context {W TUser : Type}.
Variable deps : AuthDeps W TUser.

(** X1. For an email the store does not have, [register] calls, in this
    order, [findByEmail], [hash] on the plaintext password, [buildUser] on
    the input and the hash, and [create] on the built entity; it returns
    the user that [create] returned, not the entity it built. *)
Theorem register_new_user (input : RegisterInput.t) (r : Run W TUser)
  (w1 w2 w3 w4 : W) (hashed : string) (entity created : TUser) :
  UserRepository.findByEmail (userRepo deps) (RegisterInput.email input)
    (world r) = (Returned None, w1) ->
  PasswordHasher.hash (hasher deps) (RegisterInput.password input) w1
    = (Returned hashed, w2) ->
  buildUser deps input hashed w2 = (Returned entity, w3) ->
  UserRepository.create (userRepo deps) entity w3 = (Returned created, w4) ->
  register deps input r
  = (Returned created,
     {| world := w4;
        calls := (calls r ++
                  [CallFindByEmail (RegisterInput.email input);
                   CallHash (RegisterInput.password input);
                   CallBuildUser input hashed;
                   CallCreate entity])%list |}).
Proof.
  intros F H B C.
  unfold register, findByEmail, hash, build_user, create.
  answer F. answer H. answer B. answer C.
  unfold ret. now flat_log.
Qed.

(** X2. When [hash] throws, [register] throws the same value; it has
    called [findByEmail] and [hash] only, so no user was built or
    created. *)
Theorem register_hash_failure (input : RegisterInput.t) (r : Run W TUser)
  (w1 w2 : W) (e : Thrown) :
  UserRepository.findByEmail (userRepo deps) (RegisterInput.email input)
    (world r) = (Returned None, w1) ->
  PasswordHasher.hash (hasher deps) (RegisterInput.password input) w1
    = (Throws e, w2) ->
  register deps input r
  = (Throws e,
     {| world := w2;
        calls := (calls r ++
                  [CallFindByEmail (RegisterInput.email input);
                   CallHash (RegisterInput.password input)])%list |}).
Proof.
  intros F H. unfold register, findByEmail, hash.
  answer F. answer H. now flat_log.
Qed.

(** X3. Whatever the collaborators do, [register] makes at most four
    calls, none of them to the token manager or to the cache, and it asks
    the store to create a user at most once, as its last call. *)
Theorem register_calls (input : RegisterInput.t) (r : Run W TUser) :
  exists l : list (Call TUser),
    calls (snd (register deps input r)) = (calls r ++ l)%list
    /\ (length l <= 4)%nat
    /\ Forall (fun c => port_of c <> PortToken /\ port_of c <> PortCache) l
    /\ (forall c, In c (removelast l) -> is_write c = false).
Proof.
  unfold register, findByEmail, hash, build_user, create, bind, await, throw,
    ret.
  cbn [world calls].
  destruct (UserRepository.findByEmail _ _ _) as [[[u |] | e] w1];
    cbn [world calls].
  1, 3: eexists; split; [reflexivity |]; cbn;
    repeat split; try lia; try (repeat constructor; discriminate);
    intros c [].
  destruct (PasswordHasher.hash _ _ _) as [[h | e] w2]; cbn [world calls].
  2: { eexists; split; [now flat_log |]; cbn.
       repeat split; try lia; try (repeat constructor; discriminate).
       intros c [<- | []]. reflexivity. }
  destruct (buildUser _ _ _ _) as [[entity | e] w3]; cbn [world calls].
  2: { eexists; split; [now flat_log |]; cbn.
       repeat split; try lia; try (repeat constructor; discriminate).
       intros c [<- | [<- | []]]; reflexivity. }
  destruct (UserRepository.create _ _ _) as [[created | e] w4];
    cbn [world calls].
  all: eexists; split; [now flat_log |]; cbn;
    repeat split; try lia; try (repeat constructor; discriminate);
    intros c [<- | [<- | [<- | []]]]; reflexivity.
Qed.

End Register.

Section Login.
Context {W TUser : Type}.
Variable deps : AuthDeps W TUser.

(** X4. When the store has a user for the email, the password compares
    equal and [issue] returns a token, [login] returns that token together
    with the user as the store returned it. *)
Theorem login_accepts (input : LoginInput.t) (r : Run W TUser)
  (user : TUser) (w1 w2 w3 : W) (tk : string) :
  UserRepository.findByEmail (userRepo deps) (LoginInput.email input)
    (world r) = (Returned (Some user), w1) ->
  PasswordHasher.compare (hasher deps) (LoginInput.password input)
    (getPasswordHash deps user) w1 = (Returned true, w2) ->
  TokenManager.issue (token deps) (login_claims deps user) None w2
    = (Returned tk, w3) ->
  fst (login deps input r)
  = Returned {| LoginResult.user := user; LoginResult.token := tk |}
  /\ world (snd (login deps input r)) = w3.
Proof.
  intros F C I. unfold login, findByEmail, compare, issue.
  answer F. answer C. cbn [negb]. answer I. split; reflexivity.
Qed.

(** X5. Whatever the collaborators do and however [login] ends, a token
    is issued only after the store returned a user for the email and the
    hasher's [compare] of the supplied password with that user's hash
    returned [true]. *)
Theorem login_issue_needs_match (input : LoginInput.t) (r : Run W TUser)
  (l : list (Call TUser)) :
  calls (snd (login deps input r)) = (calls r ++ l)%list ->
  existsb is_issue l = true ->
  exists (user : TUser) (w1 w2 : W),
    UserRepository.findByEmail (userRepo deps) (LoginInput.email input)
      (world r) = (Returned (Some user), w1)
    /\ PasswordHasher.compare (hasher deps) (LoginInput.password input)
         (getPasswordHash deps user) w1 = (Returned true, w2).
Proof.
  unfold login, findByEmail, compare, issue, bind, await, throw, ret.
  cbn [world calls].
  destruct (UserRepository.findByEmail _ _ _) as [[[user |] | e] w1];
    cbn [world calls snd].
  2, 3: intros E; apply app_inv_head in E; subst l; discriminate.
  destruct (PasswordHasher.compare _ _ _ _) as [[[|] | e] w2] eqn:C;
    cbn [world calls snd negb].
  2, 3: rewrite <- app_assoc; intros E; apply app_inv_head in E; subst l;
    discriminate.
  intros _ _. eauto.
Qed.

(** X6. Whatever the collaborators do, [login] makes at most three calls;
    none of them asks the store or the cache to write, and none goes to
    the cache or to [buildUser]. *)
Theorem login_calls (input : LoginInput.t) (r : Run W TUser) :
  exists l : list (Call TUser),
    calls (snd (login deps input r)) = (calls r ++ l)%list
    /\ (length l <= 3)%nat
    /\ Forall (fun c => is_write c = false
                        /\ port_of c <> PortCache
                        /\ port_of c <> PortBuilder) l.
Proof.
  unfold login, findByEmail, compare, issue, bind, await, throw, ret.
  cbn [world calls].
  destruct (UserRepository.findByEmail _ _ _) as [[[user |] | e] w1];
    cbn [world calls].
  2, 3: eexists; split; [reflexivity |]; cbn; split; [lia |];
    repeat constructor; discriminate.
  destruct (PasswordHasher.compare _ _ _ _) as [[[|] | e] w2];
    cbn [world calls negb].
  2, 3: eexists; split; [now flat_log |]; cbn; split; [lia |];
    repeat constructor; discriminate.
  destruct (TokenManager.issue _ _ _ _) as [[tk | e] w3]; cbn [world calls].
  all: eexists; split; [now flat_log |]; cbn; split; [lia |];
    repeat constructor; discriminate.
Qed.

End Login.

Section Validate.
Context {W TUser : Type}.
Variable deps : AuthDeps W TUser.

(** X7. A token that verifies and passes the revocation check, and for
    whose subject the store's lookup returns, validates: the result is
    [{ valid: true }] with the claims exactly as [verify] returned them and
    the user (or [null]) exactly as the store returned it. A cache value
    that is the empty string counts as no marker. *)
Theorem validate_accepts (tok : string) (r : Run W TUser)
  (vt : VerifiedToken.t) (w1 w2 w3 : W) (u : option TUser) :
  TokenManager.verify (token deps) tok (world r) = (Returned vt, w1) ->
  revocation_pass deps vt tok w1 w2 ->
  UserRepository.findById (userRepo deps)
    (js_String (js_prop (VerifiedToken.claims vt) "sub")) w2
    = (Returned u, w3) ->
  fst (validate deps tok r)
  = Returned {| ValidationResult.valid := true;
                ValidationResult.claims := Some (VerifiedToken.claims vt);
                ValidationResult.user := Some u |}
  /\ world (snd (validate deps tok r)) = w3.
Proof.
  intros V P L. unfold validate, try_catch, validate_try, verify, findById.
  answer V. unfold revocation_pass in P.
  destruct (cache deps) as [c |].
  - destruct P as (b & G & Hb). unfold cache_get.
    answer G. rewrite Hb, bind_ret.
    answer L. split; reflexivity.
  - subst w2. rewrite bind_ret.
    answer L. split; reflexivity.
Qed.

(** X8. [validate] answers [valid: true] only along that path: the token
    manager verified the token, the revocation check let it through (no
    cache, or a falsy cache value), and the store's lookup of the subject
    returned; the claims and the user of the result are the ones these
    calls returned. *)
Theorem validate_true_only_if (tok : string) (r r1 : Run W TUser)
  (vr : ValidationResult.t TUser) :
  validate deps tok r = (Returned vr, r1) ->
  ValidationResult.valid vr = true ->
  exists (vt : VerifiedToken.t) (w1 w2 w3 : W) (u : option TUser),
    TokenManager.verify (token deps) tok (world r) = (Returned vt, w1)
    /\ revocation_pass deps vt tok w1 w2
    /\ UserRepository.findById (userRepo deps)
         (js_String (js_prop (VerifiedToken.claims vt) "sub")) w2
       = (Returned u, w3)
    /\ vr = {| ValidationResult.valid := true;
               ValidationResult.claims := Some (VerifiedToken.claims vt);
               ValidationResult.user := Some u |}.
Proof.
  unfold validate, try_catch, validate_try, verify, findById, cache_get,
    revocation_pass, bind, await, throw, ret, invalid.
  cbn [world calls].
  destruct (TokenManager.verify _ _ _) as [[vt | e] w1] eqn:V;
    cbn [world calls].
  2: { intros [= <- _]. discriminate. }
  destruct (cache deps) as [c |].
  - cbn [world calls].
    destruct (CacheStore.get c _ w1) as [[b | e] w2] eqn:G; cbn [world calls].
    2: { intros [= <- _]. discriminate. }
    destruct (js_truthy_string b) eqn:Hb.
    { intros [= <- _]. discriminate. }
    cbn [world calls].
    destruct (UserRepository.findById (userRepo deps) _ w2) as [[u | e] w3] eqn:L;
      cbn [world calls].
    2: { intros [= <- _]. discriminate. }
    intros [= <- _] _. exists vt, w1, w2, w3, u. eauto 6.
  - cbn [world calls].
    destruct (UserRepository.findById (userRepo deps) _ w1) as [[u | e] w3] eqn:L;
      cbn [world calls].
    2: { intros [= <- _]. discriminate. }
    intros [= <- _] _. exists vt, w1, w1, w3, u. eauto.
Qed.


(** X10. When the verified claims have no [sub], the user is looked up
    under the string ["undefined"], which is what [String] makes of a
    missing property. *)
Theorem validate_without_sub (tok : string) (r : Run W TUser)
  (vt : VerifiedToken.t) (w1 w2 : W) :
  TokenManager.verify (token deps) tok (world r) = (Returned vt, w1) ->
  revocation_pass deps vt tok w1 w2 ->
  VerifiedToken.claims vt !! "sub" = None ->
  exists l : list (Call TUser),
    calls (snd (validate deps tok r)) = (l ++ [CallFindById "undefined"])%list.
Proof.
  intros V P Hsub.
  unfold validate, try_catch, validate_try, verify, findById.
  answer V. unfold js_prop. rewrite Hsub. cbn [default js_String].
  unfold revocation_pass in P.
  destruct (cache deps) as [c |].
  - destruct P as (b & G & Hb). unfold cache_get.
    answer G. rewrite Hb, bind_ret.
    unfold bind, await, ret. cbn [world calls].
    destruct (UserRepository.findById (userRepo deps) _ w2) as [[u | e] w3]; cbn;
      eexists; reflexivity.
  - subst w2. rewrite bind_ret.
    unfold bind, await, ret. cbn [world calls].
    destruct (UserRepository.findById (userRepo deps) _ w1) as [[u | e] w3]; cbn;
      eexists; reflexivity.
Qed.

(** X11. Whatever the collaborators do, [validate] makes at most three
    calls and all of them are reads: [verify], the cache's [get], the
    store's [findById]. It never writes to the cache or the store, never
    issues a token and never calls the hasher. *)
Theorem validate_calls (tok : string) (r : Run W TUser) :
  exists l : list (Call TUser),
    calls (snd (validate deps tok r)) = (calls r ++ l)%list
    /\ (length l <= 3)%nat
    /\ Forall (fun c => is_write c = false
                        /\ is_issue c = false
                        /\ port_of c <> PortHasher
                        /\ port_of c <> PortBuilder) l.
Proof.
  unfold validate, try_catch, validate_try, verify, findById, cache_get,
    bind, await, throw, ret.
  cbn [world calls].
  destruct (TokenManager.verify _ _ _) as [[vt | e] w1]; cbn [world calls].
  2: { eexists; split; [reflexivity |]; cbn; split; [lia |];
       repeat constructor; discriminate. }
  destruct (cache deps) as [c |]; cbn [world calls].
  - destruct (CacheStore.get c _ w1) as [[b | e] w2]; cbn [world calls].
    2: { eexists; split; [now flat_log |]; cbn; split; [lia |];
         repeat constructor; discriminate. }
    destruct (js_truthy_string b).
    { eexists; split; [now flat_log |]; cbn; split; [lia |];
      repeat constructor; discriminate. }
    cbn [world calls].
    destruct (UserRepository.findById (userRepo deps) _ w2) as [[u | e] w3];
      cbn [world calls].
    all: eexists; split; [now flat_log |]; cbn; split; [lia |];
      repeat constructor; discriminate.
  - destruct (UserRepository.findById (userRepo deps) _ w1) as [[u | e] w3];
      cbn [world calls].
    all: eexists; split; [now flat_log |]; cbn; split; [lia |];
      repeat constructor; discriminate.
Qed.

End Validate.

Section Logout.
Context {W TUser : Type}.
Variable Date_now : W -> Z.
Variable deps : AuthDeps W TUser.

(** X12. With a cache configured and a token that verifies, [logout]
    makes exactly two calls, [verify] and one [set] of the value ["1"]
    under [blacklistKey (jti, token)], and ends as that [set] ends: it
    returns when [set] returns and throws what [set] throws. *)
Theorem logout_outcome (c : CacheStore.t W) (tok : string) (r : Run W TUser)
  (vt : VerifiedToken.t) (w1 : W) :
  cache deps = Some c ->
  TokenManager.verify (token deps) tok (world r) = (Returned vt, w1) ->
  exists ttl : option Number.t,
    let key := blacklistKey (VerifiedToken.jti vt) tok in
    logout Date_now deps tok r
    = (fst (CacheStore.set c key "1" ttl w1),
       {| world := snd (CacheStore.set c key "1" ttl w1);
          calls := (calls r ++ [CallVerify tok; CallCacheSet key "1" ttl])%list
       |}).
Proof.
  intros Hc V. unfold logout, verify. rewrite Hc.
  destruct (computeTtlSeconds_returns (TUser := TUser) Date_now
              (VerifiedToken.exp vt)
              {| world := w1; calls := (calls r ++ [CallVerify tok])%list |})
    as [ttl Httl].
  exists ttl. cbv zeta. answer V.
  rewrite (bind_returned _ _ _ _ _ Httl).
  unfold cache_set, await. cbn [world calls].
  destruct (CacheStore.set c _ _ _ w1) as [o w2]. now flat_log.
Qed.

(** X13. The lifetime [logout] gives the marker: none when the verified
    token has no [exp] or an [exp] that is [0], [-0] or [NaN]; for every
    other [exp], [floor((exp * 1000 - now) / 1000)] in the arithmetic of
    numbers, with the clock read after [verify] returned, when that is
    above [0], and [1] otherwise. *)
Theorem logout_marker_lifetime (c : CacheStore.t W) (tok : string)
  (r : Run W TUser) (vt : VerifiedToken.t) (w1 : W) :
  cache deps = Some c ->
  TokenManager.verify (token deps) tok (world r) = (Returned vt, w1) ->
  let key := blacklistKey (VerifiedToken.jti vt) tok in
  (VerifiedToken.exp vt = None
   \/ (exists sign : bool, VerifiedToken.exp vt = Some (S754_zero sign))
   \/ VerifiedToken.exp vt = Some S754_nan ->
   calls (snd (logout Date_now deps tok r))
   = (calls r ++ [CallVerify tok; CallCacheSet key "1" None])%list)
  /\
  (forall e : Number.t,
     VerifiedToken.exp vt = Some e ->
     (forall sign : bool, e <> S754_zero sign) ->
     e <> S754_nan ->
     let ms := Number.sub (Number.mul e (Number.of_Z 1000))
                 (Number.of_Z (Date_now w1)) in
     let s := Number.floor (Number.div ms (Number.of_Z 1000)) in
     calls (snd (logout Date_now deps tok r))
     = (calls r ++
        [CallVerify tok;
         CallCacheSet key "1"
           (Some (if Number.lt (Number.of_Z 0) s then s
                  else Number.of_Z 1))])%list).
Proof.
  intros Hc V. cbv zeta. split.
  - intros He.
    assert (forall r0 : Run W TUser,
              computeTtlSeconds Date_now (VerifiedToken.exp vt) r0
              = (Returned None, r0)) as Httl.
    { intros r0. destruct He as [-> | [[sign ->] | ->]]; reflexivity. }
    unfold logout, verify. rewrite Hc. answer V.
    rewrite (bind_returned _ _ _ _ _ (Httl _)).
    unfold cache_set, await. cbn [world calls].
    destruct (CacheStore.set c _ _ _ w1) as [o w2]. now flat_log.
  - intros e He Hz Hn. now apply logout_writes_ttl with (c := c).
Qed.


(** X15. Whatever the collaborators do, [logout] makes at most two calls,
    to the token manager and to the cache only: it never reads the cache,
    never touches the user store and never issues a token; without a
    cache it makes no call at all and leaves the state as it is. *)
Theorem logout_calls (tok : string) (r : Run W TUser) :
  (cache deps = None -> logout Date_now deps tok r = (Returned tt, r))
  /\
  exists l : list (Call TUser),
    calls (snd (logout Date_now deps tok r)) = (calls r ++ l)%list
    /\ (length l <= 2)%nat
    /\ Forall (fun c => match c with
                        | CallVerify _ | CallCacheSet _ _ _ => True
                        | _ => False
                        end) l.
Proof.
  split.
  - intros Hc. unfold logout. now rewrite Hc.
  - unfold logout. destruct (cache deps) as [c |] eqn:Hc.
    2: { exists []. cbn. rewrite app_nil_r. repeat split; [lia | constructor]. }
    unfold verify.
    destruct (TokenManager.verify (token deps) tok (world r))
      as [[vt | e] w1] eqn:V.
    + answer V.
      match goal with
      | |- context [bind (computeTtlSeconds _ ?x) _ ?rr] =>
          destruct (computeTtlSeconds_returns (TUser := TUser) Date_now x rr)
            as [ttl Httl]
      end.
      rewrite (bind_returned _ _ _ _ _ Httl).
      unfold cache_set, await. cbn [world calls].
      destruct (CacheStore.set c _ _ _ w1) as [o w2].
      eexists. split; [now flat_log |]. cbn. split; [lia |].
      repeat constructor.
    + answer V.
      eexists. split; [reflexivity |]. cbn. split; [lia |].
      repeat constructor.
Qed.

End Logout.

Section Helpers.
Context {W TUser : Type}.
Variable Date_now : W -> Z.

(** X16. Two tokens get the same revocation key exactly when they have
    the same identifier, the [jti] when there is one and the raw token
    string otherwise; so a token without [jti] shares its key with every
    token whose [jti] is that token's string. *)
Theorem blacklistKey_same_iff (jti1 jti2 : option string) (tok1 tok2 : string) :
  blacklistKey jti1 tok1 = blacklistKey jti2 tok2
  <-> js_nullish jti1 tok1 = js_nullish jti2 tok2.
Proof.
  unfold blacklistKey. split.
  - intros H. cbn in H. now simplify_eq.
  - now intros ->.
Qed.


(** X18. [computeTtlSeconds] always returns and leaves the state as it
    is; it gives no time-to-live exactly when [exp] is missing or is [0],
    [-0] or [NaN]. *)
Theorem computeTtlSeconds_absent_iff (exp : option Number.t)
  (r : Run W TUser) :
  exists ttl : option Number.t,
    computeTtlSeconds Date_now exp r = (Returned ttl, r)
    /\ (ttl = None
        <-> exp = None
            \/ (exists sign : bool, exp = Some (S754_zero sign))
            \/ exp = Some S754_nan).
Proof.
  destruct exp as [[sign | sign | | sign m ex] |].
  - exists None. split; [reflexivity |]. split; eauto.
  - eexists. split; [reflexivity |]. split; [discriminate |].
    intros [H | [[sign0 H] | H]]; discriminate H.
  - exists None. split; [reflexivity |]. split; auto.
  - eexists. split; [reflexivity |]. split; [discriminate |].
    intros [H | [[sign0 H] | H]]; discriminate H.
  - exists None. split; [reflexivity |]. split; auto.
Qed.

End Helpers.

(** X19. [new AuthError(code, message)] keeps the code; its message is
    the one given, the empty one included, and without one it is the code
    itself, one of the four strings of [AuthErrorCode]. *)
Theorem new_AuthError_message_names_code (c : AuthErrorCode)
  (msg : option string) :
  AuthError.code (new_AuthError c msg) = c
  /\ AuthError.message (new_AuthError c msg)
     = match msg with
       | Some m => m
       | None =>
           match c with
           | USER_EXISTS => "USER_EXISTS"
           | INVALID_CREDENTIALS => "INVALID_CREDENTIALS"
           | TOKEN_INVALID => "TOKEN_INVALID"
           | TOKEN_BLACKLISTED => "TOKEN_BLACKLISTED"
           end
       end.
Proof.
  split; [reflexivity |].
  destruct msg as [m |]; [reflexivity |].
  destruct c; reflexivity.
Qed.

(** ** The in-memory collaborators of the tests *)

(** X20. [SimpleHasher]: a hash it made for a password compares equal to
    a candidate exactly when the candidate is that password. *)
Theorem simpleHasher_compare_iff (plain candidate : string)
  (w w1 : Demo.World) :
  exists hashed : string,
    fst (PasswordHasher.hash Demo.simpleHasher plain w) = Returned hashed
    /\ (fst (PasswordHasher.compare Demo.simpleHasher candidate hashed w1)
        = Returned true
        <-> candidate = plain).
Proof.
  eexists. split; [reflexivity |]. cbn. split.
  - intros [= H]. apply String.eqb_eq in H. cbn in H. now simplify_eq.
  - intros ->. now rewrite String.eqb_refl.
Qed.

(** X21. [MemoryCache]: [get] returns what the last [set] of the key
    stored, whatever time-to-live was passed (it is ignored, the entry
    stays until deleted); a [set] leaves the other keys alone; after [del]
    the key is absent. *)
Theorem memoryCache_laws (k k1 v : string) (ttl : option Number.t)
  (w : Demo.World) :
  let w1 := snd (CacheStore.set Demo.memoryCache k v ttl w) in
  fst (CacheStore.get Demo.memoryCache k w1) = Returned (Some v)
  /\ w1 = snd (CacheStore.set Demo.memoryCache k v None w)
  /\ (k1 <> k ->
      fst (CacheStore.get Demo.memoryCache k1 w1)
      = fst (CacheStore.get Demo.memoryCache k1 w))
  /\ fst (CacheStore.get Demo.memoryCache k
            (snd (CacheStore.del Demo.memoryCache k w1)))
     = Returned None.
Proof.
  cbn. repeat split.
  - now rewrite lookup_insert_eq.
  - intros Hk. now rewrite lookup_insert_ne.
  - now rewrite lookup_delete_eq.
Qed.

(** X22. [MemoryRepo]: a created user is found under its email and under
    its id. The repository itself does not reject a second user with an
    email it already has: the later one takes over the email, and both are
    still found by id. *)
Theorem memoryRepo_laws (u1 u2 : Demo.User) (w : Demo.World) :
  let w1 := snd (UserRepository.create Demo.memoryRepo u1 w) in
  let w2 := snd (UserRepository.create Demo.memoryRepo u2 w1) in
  fst (UserRepository.findByEmail Demo.memoryRepo (Demo.email u1) w1)
  = Returned (Some u1)
  /\ fst (UserRepository.findById Demo.memoryRepo (Demo.id u1) w1)
     = Returned (Some u1)
  /\ (Demo.email u2 = Demo.email u1 -> Demo.id u2 <> Demo.id u1 ->
      fst (UserRepository.create Demo.memoryRepo u2 w1) = Returned u2
      /\ fst (UserRepository.findByEmail Demo.memoryRepo (Demo.email u1) w2)
         = Returned (Some u2)
      /\ fst (UserRepository.findById Demo.memoryRepo (Demo.id u1) w2)
         = Returned (Some u1)
      /\ fst (UserRepository.findById Demo.memoryRepo (Demo.id u2) w2)
         = Returned (Some u2)).
Proof.
  cbn. repeat split.
  - now rewrite lookup_insert_eq.
  - now rewrite lookup_insert_eq.
  - rewrite <- H. now rewrite lookup_insert_eq.
  - rewrite lookup_insert_ne by congruence. now rewrite lookup_insert_eq.
  - now rewrite lookup_insert_eq.
Qed.

(** ** Use cases one after the other *)

Section Compositions.
Context {W TUser : Type}.
Variable deps : AuthDeps W TUser.

(** What a [register] that returned went through. *)
Lemma register_returned_inv (input : RegisterInput.t) (r r1 : Run W TUser)
  (created : TUser) :
  register deps input r = (Returned created, r1) ->
  exists (w1 w2 w3 : W) (hashed : string) (entity : TUser),
    UserRepository.findByEmail (userRepo deps) (RegisterInput.email input)
      (world r) = (Returned None, w1)
    /\ PasswordHasher.hash (hasher deps) (RegisterInput.password input) w1
       = (Returned hashed, w2)
    /\ buildUser deps input hashed w2 = (Returned entity, w3)
    /\ UserRepository.create (userRepo deps) entity w3
       = (Returned created, world r1).
Proof.
  unfold register, findByEmail, hash, build_user, create, bind, await, throw,
    ret.
  cbn [world calls].
  destruct (UserRepository.findByEmail _ _ _) as [[[u |] | e] w1];
    cbn [world calls]; try discriminate.
  destruct (PasswordHasher.hash _ _ _) as [[h | e] w2] eqn:H;
    cbn [world calls]; try discriminate.
  destruct (buildUser _ _ _ _) as [[entity | e] w3] eqn:B;
    cbn [world calls]; try discriminate.
  destruct (UserRepository.create _ _ _) as [[c | e] w4] eqn:C;
    cbn [world calls]; try discriminate.
  intros [= <- <-]. cbn. exists w1, w2, w3, h, entity. auto.
Qed.

(** What a [login] that returned went through. *)
Lemma login_returned_inv (input : LoginInput.t) (r r1 : Run W TUser)
  (res : LoginResult.t TUser) :
  login deps input r = (Returned res, r1) ->
  exists (w1 w2 : W),
    UserRepository.findByEmail (userRepo deps) (LoginInput.email input)
      (world r) = (Returned (Some (LoginResult.user res)), w1)
    /\ PasswordHasher.compare (hasher deps) (LoginInput.password input)
         (getPasswordHash deps (LoginResult.user res)) w1
       = (Returned true, w2)
    /\ TokenManager.issue (token deps)
         (login_claims deps (LoginResult.user res)) None w2
       = (Returned (LoginResult.token res), world r1).
Proof.
  unfold login, findByEmail, compare, issue, bind, await, throw, ret.
  cbn [world calls].
  destruct (UserRepository.findByEmail _ _ _) as [[[user |] | e] w1];
    cbn [world calls]; try discriminate.
  destruct (PasswordHasher.compare _ _ _ _) as [[[|] | e] w2] eqn:C;
    cbn [world calls negb]; try discriminate.
  destruct (TokenManager.issue _ _ _ _) as [[tk | e] w3] eqn:I;
    cbn [world calls]; try discriminate.
  intros [= <- <-]. cbn. eauto.
Qed.

(** X23. With a store that finds a user by email once it is created, and a
    builder that gives the user the email of the input, a second
    [register] under the email of one that returned throws
    [AuthError USER_EXISTS], whatever the password and attributes. *)
Theorem register_twice_rejected (email_of : TUser -> string)
  (first second : RegisterInput.t) (r r1 : Run W TUser) (created : TUser) :
  finds_created deps email_of ->
  builds_from deps email_of ->
  RegisterInput.email second = RegisterInput.email first ->
  register deps first r = (Returned created, r1) ->
  fst (register deps second r1)
  = Throws (OfAuthError {| AuthError.code := USER_EXISTS;
                           AuthError.message := "USER_EXISTS" |}).
Proof.
  intros Hfind Hbuild Hmail Hreg.
  destruct (register_returned_inv _ _ _ _ Hreg)
    as (w1 & w2 & w3 & h & entity & _ & _ & B & C).
  pose proof (Hfind _ _ _ _ C) as F.
  destruct (Hbuild _ _ _ _ _ B) as [Hm _].
  rewrite Hm, <- Hmail in F.
  destruct (UserRepository.findByEmail (userRepo deps)
              (RegisterInput.email second) (world r1)) as [o wa] eqn:F1.
  cbn in F. subst o.
  unfold register, findByEmail. answer F1. reflexivity.
Qed.

(** X24. With such a store and builder, a store that keeps the password
    hash of what it creates and a hasher whose hashes compare equal to the
    password they were made from, a [login] with the email and password of
    a [register] that just returned passes the credential check: it ends
    as the [issue] of a token for the created user ends, and returns that
    user with the token. *)
Theorem register_then_login (email_of : TUser -> string)
  (input : RegisterInput.t) (li : LoginInput.t) (r r1 : Run W TUser)
  (created : TUser) :
  finds_created deps email_of ->
  keeps_hash deps ->
  builds_from deps email_of ->
  compares_own_hash deps ->
  LoginInput.email li = RegisterInput.email input ->
  LoginInput.password li = RegisterInput.password input ->
  register deps input r = (Returned created, r1) ->
  exists w2 : W,
    fst (login deps li r1)
    = Outcome_map
        (fun tk => {| LoginResult.user := created; LoginResult.token := tk |})
        (fst (TokenManager.issue (token deps) (login_claims deps created)
                None w2)).
Proof.
  intros Hfind Hkeep Hbuild Hcmp Hmail Hpw Hreg.
  destruct (register_returned_inv _ _ _ _ Hreg)
    as (w1 & w2 & w3 & h & entity & _ & H & B & C).
  pose proof (Hfind _ _ _ _ C) as F.
  destruct (Hbuild _ _ _ _ _ B) as [Hm Hh].
  rewrite Hm, <- Hmail in F.
  destruct (UserRepository.findByEmail (userRepo deps)
              (LoginInput.email li) (world r1)) as [o wa] eqn:F1.
  cbn in F. subst o.
  pose proof (Hcmp _ _ _ _ H wa) as K.
  rewrite <- Hh, <- (Hkeep _ _ _ _ C), <- Hpw in K.
  destruct (PasswordHasher.compare (hasher deps) (LoginInput.password li)
              (getPasswordHash deps created) wa) as [o wb] eqn:K1.
  cbn in K. subst o.
  exists wb. unfold login, findByEmail, compare, issue.
  answer F1. answer K1. cbn [negb].
  unfold bind, await, ret. cbn [world calls].
  destruct (TokenManager.issue _ _ _ wb) as [[tk | e] wc]; reflexivity.
Qed.

(** X25. When the claims builder is absent or returns no [sub], and the
    token manager verifies the token it just issued for the claims of the
    login, without options, to these claims, the [validate] that follows a [login] that returned looks
    the user up under [getUserId] of the logged-in user; if the revocation
    check lets the token through and the store returns, the result is
    [{ valid: true }] with the claims of the login and what the store
    returned. *)
Theorem login_then_validate (li : LoginInput.t) (r r1 : Run W TUser)
  (res : LoginResult.t TUser) (vt : VerifiedToken.t) (w1 w2 w3 : W)
  (u : option TUser) :
  match buildClaims deps with
  | None => True
  | Some f => forall user : TUser, f user !! "sub" = None
  end ->
  verifies_issued deps (login_claims deps (LoginResult.user res)) ->
  login deps li r = (Returned res, r1) ->
  TokenManager.verify (token deps) (LoginResult.token res) (world r1)
    = (Returned vt, w1) ->
  revocation_pass deps vt (LoginResult.token res) w1 w2 ->
  UserRepository.findById (userRepo deps)
    (getUserId deps (LoginResult.user res)) w2 = (Returned u, w3) ->
  fst (validate deps (LoginResult.token res) r1)
  = Returned {| ValidationResult.valid := true;
                ValidationResult.claims :=
                  Some (login_claims deps (LoginResult.user res));
                ValidationResult.user := Some u |}.
Proof.
  intros Hsub Hround Hlogin V P L.
  destruct (login_returned_inv _ _ _ _ Hlogin) as (wa & wb & _ & _ & I).
  destruct (Hround _ _ _ I) as (vt1 & V1 & Hclaims).
  rewrite V in V1. cbn in V1. injection V1 as <-.
  assert (js_String (js_prop (VerifiedToken.claims vt) "sub")
          = getUserId deps (LoginResult.user res)) as Hid.
  { rewrite Hclaims. unfold js_prop.
    destruct (buildClaims deps) as [f |] eqn:Hf.
    - now rewrite (login_claims_sub_untouched deps _ f Hf (Hsub _)).
    - now rewrite (login_claims_sub_no_builder deps _ Hf). }
  unfold validate, try_catch, validate_try, verify, findById.
  answer V. rewrite Hid. unfold revocation_pass in P.
  destruct (cache deps) as [c |].
  - destruct P as (b & G & Hb). unfold cache_get.
    answer G. rewrite Hb, bind_ret.
    answer L. now rewrite Hclaims.
  - subst w2. rewrite bind_ret.
    answer L. now rewrite Hclaims.
Qed.

End Compositions.

(** ** The in-memory collaborators behave as the compositions need *)


Lemma memoryRepo_finds_created (d : AuthDeps Demo.World Demo.User) :
  userRepo d = Demo.memoryRepo -> finds_created d Demo.email.
Proof.
  intros Hr entity created w w1. rewrite Hr. cbn.
  intros [= <- <-]. cbn. now rewrite lookup_insert_eq.
Qed.

Lemma memoryRepo_keeps_hash (d : AuthDeps Demo.World Demo.User) :
  userRepo d = Demo.memoryRepo -> keeps_hash d.
Proof.
  intros Hr entity created w w1. rewrite Hr. cbn. now intros [= <- _].
Qed.

Lemma freshUser_builds_from (d : AuthDeps Demo.World Demo.User) :
  buildUser d = Demo.freshUser ->
  getPasswordHash d = Demo.passwordHash ->
  builds_from d Demo.email.
Proof.
  intros Hb Hg data hashed entity w w1. rewrite Hb, Hg. cbn.
  intros [= <- _]. split; reflexivity.
Qed.

Lemma simpleHasher_compares_own_hash (d : AuthDeps Demo.World Demo.User) :
  hasher d = Demo.simpleHasher -> compares_own_hash d.
Proof.
  intros Hh plain hashed w w1. rewrite Hh. cbn.
  intros [= <- _] w2. cbn. now rewrite String.eqb_refl.
Qed.

(** ** The further properties at concrete inputs *)

Lemma register_new_user_witness :
  fst (register Demo.deps Demo.bob Demo.r0)
  = Returned {| Demo.id := "u1"; Demo.email := "b@b.com";
                Demo.passwordHash := "hashed:p" |}.
Proof.
  rewrite (register_new_user Demo.deps Demo.bob Demo.r0 Demo.w0 Demo.w0
             (snd (Demo.freshUser Demo.bob "hashed:p" Demo.w0))
             (snd (Demo.store
                     {| Demo.id := "u1"; Demo.email := "b@b.com";
                        Demo.passwordHash := "hashed:p" |}
                     (snd (Demo.freshUser Demo.bob "hashed:p" Demo.w0))))
             "hashed:p"
             {| Demo.id := "u1"; Demo.email := "b@b.com";
                Demo.passwordHash := "hashed:p" |}
             {| Demo.id := "u1"; Demo.email := "b@b.com";
                Demo.passwordHash := "hashed:p" |}
             eq_refl eq_refl eq_refl eq_refl).
  reflexivity.
Defined.

Lemma register_hash_failure_witness :
  register Echo.deps_down_hasher Demo.bob Demo.r0
  = (Throws (ForeignError "hasher down"),
     {| world := Demo.w0;
        calls := [CallFindByEmail "b@b.com"; CallHash "p"] |}).
Proof.
  apply (register_hash_failure Echo.deps_down_hasher Demo.bob Demo.r0
           Demo.w0 Demo.w0 (ForeignError "hasher down")).
  - reflexivity.
  - reflexivity.
Defined.

Lemma register_calls_witness :
  exists l : list (Call Demo.User),
    calls (snd (register Demo.deps Demo.bob Demo.r0)) = l
    /\ (length l <= 4)%nat
    /\ Forall (fun c => port_of c <> PortToken /\ port_of c <> PortCache) l
    /\ (forall c, In c (removelast l) -> is_write c = false).
Proof. exact (register_calls Demo.deps Demo.bob Demo.r0). Defined.

Lemma login_accepts_witness :
  fst (login Demo.deps Demo.alice_login Demo.r0)
  = Returned {| LoginResult.user := Demo.alice; LoginResult.token := "t1" |}.
Proof.
  apply (login_accepts Demo.deps Demo.alice_login Demo.r0 Demo.alice
           Demo.w0 Demo.w0 (Demo.with_serial Demo.w0 2) "t1").
  - reflexivity.
  - reflexivity.
  - reflexivity.
Defined.

Lemma login_issue_needs_match_witness :
  exists (user : Demo.User) (w1 w2 : Demo.World),
    UserRepository.findByEmail Demo.memoryRepo "a@a.com" Demo.w0
    = (Returned (Some user), w1)
    /\ PasswordHasher.compare Demo.simpleHasher "secret"
         (Demo.passwordHash user) w1 = (Returned true, w2).
Proof.
  apply (login_issue_needs_match Demo.deps Demo.alice_login Demo.r0
           [CallFindByEmail "a@a.com";
            CallCompare "secret" "hashed:secret";
            CallIssue (login_claims Demo.deps Demo.alice) None]).
  - reflexivity.
  - reflexivity.
Defined.

Lemma validate_accepts_witness :
  fst (validate Echo.deps "u0"
         {| world := Echo.w_blank_marker; calls := [] |})
  = Returned {| ValidationResult.valid := true;
                ValidationResult.claims := Some {[ "sub" := JsStr "u0" ]};
                ValidationResult.user := Some (Some Demo.alice) |}.
Proof.
  apply (validate_accepts Echo.deps "u0"
           {| world := Echo.w_blank_marker; calls := [] |}
           (Demo.token_of "u0" None None)
           Echo.w_blank_marker Echo.w_blank_marker Echo.w_blank_marker
           (Some Demo.alice)).
  - reflexivity.
  - exists (Some EmptyString). split; reflexivity.
  - reflexivity.
Defined.

Lemma validate_true_only_if_witness :
  exists (vt : VerifiedToken.t) (w1 w2 w3 : Demo.World)
         (u : option Demo.User),
    TokenManager.verify Demo.tableToken "t-live" Demo.w0 = (Returned vt, w1)
    /\ revocation_pass Demo.deps vt "t-live" w1 w2
    /\ UserRepository.findById Demo.memoryRepo
         (js_String (js_prop (VerifiedToken.claims vt) "sub")) w2
       = (Returned u, w3)
    /\ {| ValidationResult.valid := true;
          ValidationResult.claims := Some {[ "sub" := JsStr "u0" ]};
          ValidationResult.user := Some (Some Demo.alice) |}
       = {| ValidationResult.valid := true;
            ValidationResult.claims := Some (VerifiedToken.claims vt);
            ValidationResult.user := Some u |}.
Proof.
  apply (validate_true_only_if Demo.deps "t-live" Demo.r0
           (snd (validate Demo.deps "t-live" Demo.r0))).
  - reflexivity.
  - reflexivity.
Defined.


Lemma validate_without_sub_witness :
  exists l : list (Call Demo.User),
    calls (snd (validate Echo.deps_anon "anything" Demo.r0))
    = (l ++ [CallFindById "undefined"])%list.
Proof.
  apply (validate_without_sub Echo.deps_anon "anything" Demo.r0
           {| VerifiedToken.claims := ∅;
              VerifiedToken.jti := None;
              VerifiedToken.exp := None |} Demo.w0 Demo.w0).
  - reflexivity.
  - reflexivity.
  - reflexivity.
Defined.

Lemma logout_outcome_witness :
  exists ttl : option Number.t,
    logout Demo.clock Demo.deps "t-live" Demo.r0
    = (fst (CacheStore.set Demo.memoryCache "auth:blacklist:j1" "1" ttl
              Demo.w0),
       {| world := snd (CacheStore.set Demo.memoryCache "auth:blacklist:j1"
                          "1" ttl Demo.w0);
          calls := [CallVerify "t-live";
                    CallCacheSet "auth:blacklist:j1" "1" ttl] |}).
Proof.
  apply (logout_outcome Demo.clock Demo.deps Demo.memoryCache "t-live"
           Demo.r0 (Demo.token_of "u0" (Some "j1") (Some 1700000300))
           Demo.w0).
  - reflexivity.
  - reflexivity.
Defined.

Lemma logout_marker_lifetime_witness :
  calls (snd (logout Demo.clock Demo.deps "t-raw" Demo.r0))
  = [CallVerify "t-raw"; CallCacheSet "auth:blacklist:t-raw" "1" None]
  /\ calls (snd (logout Demo.clock Demo.deps "t-live" Demo.r0))
     = [CallVerify "t-live";
        CallCacheSet "auth:blacklist:j1" "1" (Some (Number.of_Z 300))].
Proof.
  split.
  - apply (proj1 (logout_marker_lifetime Demo.clock Demo.deps
                    Demo.memoryCache "t-raw" Demo.r0
                    (Demo.token_of "u0" None None) Demo.w0
                    eq_refl eq_refl)).
    left. reflexivity.
  - rewrite (proj2 (logout_marker_lifetime Demo.clock Demo.deps
                      Demo.memoryCache "t-live" Demo.r0
                      (Demo.token_of "u0" (Some "j1") (Some 1700000300))
                      Demo.w0 eq_refl eq_refl)
               (Number.of_Z 1700000300) eq_refl
               ltac:(intros sign H; vm_compute in H; discriminate H)
               ltac:(intros H; vm_compute in H; discriminate H)).
    reflexivity.
Defined.


Lemma logout_calls_witness :
  logout Demo.clock Demo.deps_no_cache "t-live" Demo.r0
  = (Returned tt, Demo.r0).
Proof.
  apply (proj1 (logout_calls Demo.clock Demo.deps_no_cache "t-live" Demo.r0)).
  reflexivity.
Defined.


Lemma memoryCache_laws_witness :
  fst (CacheStore.get Demo.memoryCache "other"
         (snd (CacheStore.set Demo.memoryCache "k" "v"
                 (Some (Number.of_Z 5))
                 Echo.w_revoked)))
  = fst (CacheStore.get Demo.memoryCache "other" Echo.w_revoked).
Proof.
  apply (proj1 (proj2 (proj2 (memoryCache_laws "k" "other" "v"
                                (Some (Number.of_Z 5))
                                Echo.w_revoked)))).
  discriminate.
Defined.

Lemma memoryRepo_laws_witness :
  let twin := {| Demo.id := "u7"; Demo.email := "a@a.com";
                 Demo.passwordHash := "hashed:x" |} in
  let w2 := snd (Demo.store twin (snd (Demo.store Demo.alice Demo.w0))) in
  fst (UserRepository.findByEmail Demo.memoryRepo "a@a.com" w2)
  = Returned (Some twin)
  /\ fst (UserRepository.findById Demo.memoryRepo "u0" w2)
     = Returned (Some Demo.alice).
Proof.
  cbv zeta.
  destruct (proj2 (proj2 (memoryRepo_laws Demo.alice
                            {| Demo.id := "u7"; Demo.email := "a@a.com";
                               Demo.passwordHash := "hashed:x" |} Demo.w0))
              eq_refl ltac:(discriminate)) as (_ & Hmail & Hid & _).
  split; [exact Hmail | exact Hid].
Defined.

Lemma register_twice_rejected_witness :
  fst (register Demo.deps Demo.bob
         (snd (register Demo.deps Demo.bob Demo.r0)))
  = Throws (OfAuthError {| AuthError.code := USER_EXISTS;
                           AuthError.message := "USER_EXISTS" |}).
Proof.
  apply (register_twice_rejected Demo.deps Demo.email Demo.bob Demo.bob
           Demo.r0 (snd (register Demo.deps Demo.bob Demo.r0))
           {| Demo.id := "u1"; Demo.email := "b@b.com";
              Demo.passwordHash := "hashed:p" |}).
  - apply memoryRepo_finds_created. reflexivity.
  - apply freshUser_builds_from; reflexivity.
  - reflexivity.
  - reflexivity.
Defined.

Lemma register_then_login_witness :
  exists w2 : Demo.World,
    fst (login Demo.deps
           {| LoginInput.email := "b@b.com"; LoginInput.password := "p" |}
           (snd (register Demo.deps Demo.bob Demo.r0)))
    = Outcome_map
        (fun tk =>
           {| LoginResult.user :=
                {| Demo.id := "u1"; Demo.email := "b@b.com";
                   Demo.passwordHash := "hashed:p" |};
              LoginResult.token := tk |})
        (fst (TokenManager.issue Demo.tableToken
                (login_claims Demo.deps
                   {| Demo.id := "u1"; Demo.email := "b@b.com";
                      Demo.passwordHash := "hashed:p" |})
                None w2)).
Proof.
  apply (register_then_login Demo.deps Demo.email Demo.bob
           {| LoginInput.email := "b@b.com"; LoginInput.password := "p" |}
           Demo.r0 (snd (register Demo.deps Demo.bob Demo.r0))
           {| Demo.id := "u1"; Demo.email := "b@b.com";
              Demo.passwordHash := "hashed:p" |}).
  - apply memoryRepo_finds_created. reflexivity.
  - apply memoryRepo_keeps_hash. reflexivity.
  - apply freshUser_builds_from; reflexivity.
  - apply simpleHasher_compares_own_hash. reflexivity.
  - reflexivity.
  - reflexivity.
  - reflexivity.
Defined.

Lemma login_then_validate_witness :
  fst (validate Echo.deps_no_cache "u0"
         (snd (login Echo.deps_no_cache Demo.alice_login Demo.r0)))
  = Returned {| ValidationResult.valid := true;
                ValidationResult.claims :=
                  Some (login_claims Echo.deps_no_cache Demo.alice);
                ValidationResult.user := Some (Some Demo.alice) |}.
Proof.
  apply (login_then_validate Echo.deps_no_cache Demo.alice_login Demo.r0
           (snd (login Echo.deps_no_cache Demo.alice_login Demo.r0))
           {| LoginResult.user := Demo.alice; LoginResult.token := "u0" |}
           (Demo.token_of "u0" None None) Demo.w0 Demo.w0 Demo.w0
           (Some Demo.alice)).
  - exact I.
  - intros tk w w1 [= <- <-]. eexists. split; reflexivity.
  - reflexivity.
  - reflexivity.
  - reflexivity.
  - reflexivity.
Defined.
